(** * Silhouette documentation build configuration ([docs/conf.py])

    The configuration is a Python module that the documentation host executes
    once.  Its observable behaviour is the module namespace it leaves behind
    (the settings the host reads), one optional-import probe guarded by an
    environment variable, and a [setup] hook that registers a stylesheet with
    the host application.

    The module body is embedded statement by statement in a small
    state-and-exception monad over the module namespace; every assignment
    records the world it produces, so that all intermediate states of the
    execution can be inspected. *)

From stdpp Require Import gmap strings list fin_maps.
From Stdlib Require Import Ascii String ZArith.

Open Scope string_scope.
Open Scope list_scope.

(** ** Python values and exceptions *)

Module Py.

#[local] Set Warnings "-register-all".

(** The exception classes that the modelled statements can raise. *)
Inductive exn :=
| ImportError
| AttributeError
| IndexError
| ValueError.

(** Modules that an [import] statement of the configuration can bind.  The
    theme package carries what a call of its [get_html_theme_path()] does:
    it returns a path, or it raises (an installed release without that
    function raises [AttributeError]). *)
Inductive pymodule :=
| ModSys
| ModOs
| ModRtdTheme (theme_path : exn + string).

(** The values that occur as settings. *)
Inductive value :=
| VNone
| VBool (b : bool)
| VInt (n : Z)
| VStr (s : string)
| VList (items : list value)
| VTuple (items : list value)
| VDict (entries : list (string * value))
| VModule (m : pymodule)
| VFunction (name : string).

Definition exn_eqb (a b : exn) : bool :=
  match a, b with
  | ImportError, ImportError => true
  | AttributeError, AttributeError => true
  | IndexError, IndexError => true
  | ValueError, ValueError => true
  | _, _ => false
  end.

(** [v == 'lit'] for a string literal: only a string with the same
    characters compares equal; [None] and every other value do not. *)
Definition eq_str (v : value) (lit : string) : bool :=
  match v with
  | VStr s => String.eqb s lit
  | _ => false
  end.

(** *** [str.format] with positional fields

    The scanner walks the template once.  Literal text is copied, [{{] and
    [}}] are the escaped braces, and [{N}] with a decimal [N] is replaced by
    the [N]-th argument.  An index past the arguments raises [IndexError];
    a lone brace raises [ValueError].  The scanner covers the templates
    whose replacement fields are explicit decimal indices, the only form
    the configuration uses.  It does not follow Python on other fields
    (automatic numbering [{}], conversions, format specifications, names
    and attributes): there it answers [ValueError]. *)
Inductive fstate :=
| Text
| Open
| Field (index : nat)
| Close.

Definition digit_of (c : ascii) : option nat :=
  let n := nat_of_ascii c in
  if (48 <=? n)%nat && (n <=? 57)%nat then Some (n - 48)%nat else None.

Definition emit (s : string) (r : exn + string) : exn + string :=
  match r with
  | inr t => inr (s +:+ t)
  | inl e => inl e
  end.

Fixpoint format_from (st : fstate) (tmpl : string) (args : list string)
  : exn + string :=
  match tmpl with
  | EmptyString =>
      match st with
      | Text => inr EmptyString
      | _ => inl ValueError
      end
  | String c rest =>
      match st with
      | Text =>
          if Ascii.eqb c "{" then format_from Open rest args
          else if Ascii.eqb c "}" then format_from Close rest args
          else emit (String c EmptyString) (format_from Text rest args)
      | Open =>
          if Ascii.eqb c "{" then emit "{" (format_from Text rest args)
          else match digit_of c with
               | Some d => format_from (Field d) rest args
               | None => inl ValueError
               end
      | Field n =>
          if Ascii.eqb c "}" then
            match args !! n with
            | Some a => emit a (format_from Text rest args)
            | None => inl IndexError
            end
          else match digit_of c with
               | Some d => format_from (Field (10 * n + d)) rest args
               | None => inl ValueError
               end
      | Close =>
          if Ascii.eqb c "}" then emit "}" (format_from Text rest args)
          else inl ValueError
      end
  end.

Definition format (tmpl : string) (args : list string) : exn + string :=
  format_from Text tmpl args.

(** [needle in hay] for strings. *)
Fixpoint contains (needle hay : string) : bool :=
  String.prefix needle hay
  || match hay with
     | EmptyString => false
     | String _ rest => contains needle rest
     end.

End Py.

Import Py.

(** ** The world the configuration runs in *)

(** What the build environment provides: the process environment
    ([os.environ]) and the optional theme package.  [rtd_theme] is [None]
    when the package is not installed, so that importing [sphinx_rtd_theme]
    raises [ImportError]; it is [Some (inr p)] when the package imports and
    its [get_html_theme_path()] returns the path [p]; it is [Some (inl e)]
    when the package imports and the call raises [e], as a release without
    that function does with [AttributeError]. *)
Record Env := mkEnv {
  environ : gmap string string;
  rtd_theme : option (exn + string)
}.

(** Modelled from the spec: the host application (the documentation renderer,
    which is not part of the sources) owns a registry of static assets;
    [app.add_stylesheet(filename)] registers one more entry in it. *)
Record HostApp := mkHost {
  stylesheets : list string
}.

(** The state the configuration can observe or change: the module namespace
    and the host application object. *)
Record World := mkWorld {
  globals : gmap string value;
  host : HostApp
}.

(** ** Execution monad: state, exceptions and the trace of visited worlds *)

Inductive outcome (A : Type) :=
| Returned (a : A)
| Raised (e : exn).
Arguments Returned {A} a.
Arguments Raised {A} e.

Record result (A : Type) := mkResult {
  out : outcome A;
  final : World;
  visited : list World
}.
Arguments mkResult {A} _ _ _.
Arguments out {A} _.
Arguments final {A} _.
Arguments visited {A} _.

Definition Exec (A : Type) : Type := World -> result A.

Definition ret {A} (a : A) : Exec A :=
  fun w => mkResult (Returned a) w [].

Definition raise {A} (e : exn) : Exec A :=
  fun w => mkResult (Raised e) w [].

Definition bind {A B} (m : Exec A) (k : A -> Exec B) : Exec B :=
  fun w =>
    let r := m w in
    match out r with
    | Returned a =>
        let r' := k a (final r) in
        mkResult (out r') (final r') (visited r ++ visited r')
    | Raised e => mkResult (Raised e) (final r) (visited r)
    end.

Declare Scope exec_scope.
Delimit Scope exec_scope with exec.
Notation "x <- m ;; k" := (bind m (fun x => k))
  (at level 100, m at next level, right associativity) : exec_scope.
Notation "m ;; k" := (bind m (fun _ => k))
  (at level 100, right associativity) : exec_scope.
Open Scope exec_scope.

(** [try: body  except cls: handler].  The handler runs in the world the body
    left behind; an exception of another class propagates. *)
Definition try_except {A} (body : Exec A) (cls : exn) (handler : Exec A)
  : Exec A :=
  fun w =>
    let r := body w in
    match out r with
    | Returned a => r
    | Raised e =>
        if exn_eqb e cls then
          let r' := handler (final r) in
          mkResult (out r') (final r') (visited r ++ visited r')
        else r
    end.

(** [name = v] at module level. *)
Definition set_global (name : string) (v : value) : Exec unit :=
  fun w =>
    let w' := mkWorld (<[name := v]> (globals w)) (host w) in
    mkResult (Returned tt) w' [w'].

(** [app.add_stylesheet(filename)]. *)
Definition add_stylesheet (filename : string) : Exec unit :=
  fun w =>
    let w' := mkWorld (globals w) (mkHost (stylesheets (host w) ++ [filename])) in
    mkResult (Returned tt) w' [w'].

Definition lift_result {A} (r : exn + A) : Exec A :=
  match r with
  | inr a => ret a
  | inl e => raise e
  end.

(** ** Imports and the process environment *)

Definition find_module (env : Env) (name : string) : option pymodule :=
  if String.eqb name "sys" then Some ModSys
  else if String.eqb name "os" then Some ModOs
  else if String.eqb name "sphinx_rtd_theme" then
    match rtd_theme env with
    | Some p => Some (ModRtdTheme p)
    | None => None
    end
  else None.

(** [import name]: binds the module under its name, or raises
    [ImportError] and binds nothing. *)
Definition import_module (env : Env) (name : string) : Exec pymodule :=
  match find_module env name with
  | Some m => set_global name (VModule m) ;; ret m
  | None => raise ImportError
  end.

(** [os.environ.get(key, default)]. *)
Definition environ_get (env : Env) (key : string) (default : value) : value :=
  match environ env !! key with
  | Some s => VStr s
  | None => default
  end.

(** [sphinx_rtd_theme.get_html_theme_path()]: the attribute lookup and the
    call.  Only the theme package has the function; what the call does is
    the environment's. *)
Definition get_html_theme_path (m : pymodule) : Exec string :=
  match m with
  | ModRtdTheme (inr p) => ret p
  | ModRtdTheme (inl e) => raise e
  | _ => raise AttributeError
  end.

(** ** The configuration module, statement by statement *)

Definition LF : string := String "010"%char EmptyString.

Definition strs (l : list string) : value := VList (VStr <$> l).

(** Line 6: [on_rtd = os.environ.get('READTHEDOCS', None) == 'True']. *)
Definition on_rtd (env : Env) : bool :=
  eq_str (environ_get env "READTHEDOCS" VNone) "True".

(** Lines 17-19. *)
Definition last_stable : string := "1.0".
Definition version : string := "2".
Definition release : string := "2.0-SNAPSHOT".

(** Lines 21-23: the template of the prolog and the call
    [.format(last_stable, release)]. *)
Definition rst_prolog_template : string :=
  LF +:+ ".. |last_stable| replace:: :silhouette-doc:`{0}`" +:+ LF.

Definition rst_prolog : exn + string :=
  format rst_prolog_template [last_stable; release].

(** Lines 25-31: role name, then the pair (URL pattern, caption prefix). *)
Definition extlinks : list (string * (string * string)) :=
  [ ("silhouette-doc", ("http://docs.silhouette.mohiva.com/%s/", ""));
    ("silhouette-api-doc", ("http://silhouette.mohiva.com/api/%s/", ""));
    ("silhouette-htmlzip-doc",
     ("https://readthedocs.org/projects/silhouette/downloads/htmlzip/%s/", ""));
    ("silhouette-pdf-doc",
     ("https://readthedocs.org/projects/silhouette/downloads/pdf/%s/", ""));
    ("silhouette-epub-doc",
     ("https://readthedocs.org/projects/silhouette/downloads/epub/%s/", "")) ].

Definition extlinks_value : value :=
  VDict ((fun e => (e.1, VTuple [VStr e.2.1; VStr e.2.2])) <$> extlinks).

(** Lines 4-31. *)
Definition general_configuration (env : Env) : Exec unit :=
  import_module env "sys" ;;
  import_module env "os" ;;
  set_global "on_rtd" (VBool (on_rtd env)) ;;
  set_global "extensions" (strs ["sphinx.ext.ifconfig"; "sphinx.ext.extlinks"]) ;;
  set_global "templates_path" (strs ["_templates"]) ;;
  set_global "exclude_patterns" (strs ["_build"]) ;;
  set_global "source_suffix" (VStr ".rst") ;;
  set_global "master_doc" (VStr "index") ;;
  set_global "project" (VStr "Silhouette") ;;
  set_global "copyright" (VStr "2015, Christian Kaps") ;;
  set_global "last_stable" (VStr last_stable) ;;
  set_global "version" (VStr version) ;;
  set_global "release" (VStr release) ;;
  set_global "pygments_style" (VStr "sphinx") ;;
  prolog <- lift_result rst_prolog ;;
  set_global "rst_prolog" (VStr prolog) ;;
  set_global "extlinks" extlinks_value.

(** Lines 37-42: the probe for the optional theme package.  The handler of
    line 41 names [ImportError] only; line 39 has already run when line 40
    calls into the package. *)
Definition theme_probe (env : Env) : Exec unit :=
  try_except
    (m <- import_module env "sphinx_rtd_theme" ;;
     set_global "html_theme" (VStr "sphinx_rtd_theme") ;;
     p <- get_html_theme_path m ;;
     set_global "html_theme_path" (VList [VStr p]))
    ImportError
    (ret tt).

(** Lines 35-55. *)
Definition html_output (env : Env) : Exec unit :=
  set_global "html_theme" (VStr "default") ;;
  (if negb (on_rtd env) then theme_probe env else ret tt) ;;
  set_global "html_static_path" (strs ["_static"]) ;;
  set_global "html_use_smartypants" (VBool true) ;;
  set_global "htmlhelp_basename" (VStr "Silhouettedoc") ;;
  set_global "setup" (VFunction "setup").

(** Lines 60-86. *)
Definition latex_and_man_output : Exec unit :=
  set_global "latex_elements" (VDict []) ;;
  set_global "latex_documents"
    (VList [VTuple [VStr "index"; VStr "Silhouette.tex";
                    VStr "Silhouette Documentation";
                    VStr "Christian Kaps"; VStr "manual"]]) ;;
  set_global "man_pages"
    (VList [VTuple [VStr "index"; VStr "silhouette";
                    VStr "Silhouette Documentation";
                    strs ["Christian Kaps"]; VInt 1]]).

(** The whole module body. *)
Definition conf_py (env : Env) : Exec unit :=
  general_configuration env ;;
  html_output env ;;
  latex_and_man_output.

(** Lines 53-55: [def setup(app)].  [app] is the host application of the
    world; a function body without [return] yields [None]. *)
Definition setup : Exec value :=
  add_stylesheet "theme_overrides.css" ;;
  ret VNone.

(** ** What the host reads after loading *)

Record ProjectMetadata := mkProjectMetadata {
  name : option value;
  copyright : option value;
  versionShort : option value;
  versionFull : option value;
  lastStableVersion : option value
}.

Record OutputOptions := mkOutputOptions {
  htmlTheme : option value;
  staticAssetPaths : option value;
  htmlHelpBaseName : option value;
  latexOptions : option value;
  manPageEntries : option value
}.

Record Settings := mkSettings {
  projectMetadata : ProjectMetadata;
  linkTemplates : option value;
  outputOptions : OutputOptions
}.

(** The settings as the namespace [g] holds them: each field reads the
    module-level variable it stands for. *)
Definition settings_of (g : gmap string value) : Settings :=
  {| projectMetadata :=
       {| name := g !! "project";
          copyright := g !! "copyright";
          versionShort := g !! "version";
          versionFull := g !! "release";
          lastStableVersion := g !! "last_stable" |};
     linkTemplates := g !! "extlinks";
     outputOptions :=
       {| htmlTheme := g !! "html_theme";
          staticAssetPaths := g !! "html_static_path";
          htmlHelpBaseName := g !! "htmlhelp_basename";
          latexOptions := g !! "latex_elements";
          manPageEntries := g !! "man_pages" |} |}.

(** Loading: run the module body in world [w] and hand the settings to the
    host, or propagate the exception that escaped. *)
Definition load (env : Env) (w : World) : outcome Settings :=
  let r := conf_py env w in
  match out r with
  | Returned _ => Returned (settings_of (globals (final r)))
  | Raised e => Raised e
  end.

(** The theme the loaded configuration selects. *)
Definition resolveTheme (env : Env) (w : World) : option value :=
  globals (final (conf_py env w)) !! "html_theme".

(** A fresh world: empty namespace, host with nothing registered. *)
Definition fresh : World := mkWorld ∅ (mkHost []).

(** The host's session: it loads the configuration, then calls the hook. *)
Definition session (env : Env) : Exec value :=
  conf_py env ;;
  setup.

(** ** Link-template expansion *)

(** Modelled from the spec: the expansion of a link template, which the
    host's external-links extension performs and the sources do not contain.
    The spec gives it as "given a template name and a version string,
    produces baseUrl + version + trailingSegment", for a "URL pattern
    containing one substitution placeholder".  [split_placeholder] cuts a
    pattern at its first [%s] into the base URL and the trailing segment. *)
Fixpoint split_placeholder (pattern : string) : option (string * string) :=
  match pattern with
  | EmptyString => None
  | String c rest =>
      match rest with
      | EmptyString => None
      | String d rest' =>
          if Ascii.eqb c "%" && Ascii.eqb d "s" then Some (EmptyString, rest')
          else match split_placeholder rest with
               | Some (base, trailing) => Some (String c base, trailing)
               | None => None
               end
      end
  end.

(** Modelled from the spec: base URL, then the version, then the trailing
    segment; the host's expansion is not part of the sources.  A pattern
    without placeholder has no expansion. *)
Definition expand (pattern v : string) : option string :=
  match split_placeholder pattern with
  | Some (base, trailing) => Some (base +:+ v +:+ trailing)
  | None => None
  end.

(** The pattern registered under a role name in [extlinks]. *)
Definition url_pattern (role : string) : option string :=
  match (list_to_map extlinks : gmap string (string * string)) !! role with
  | Some (pattern, _) => Some pattern
  | None => None
  end.

(** Modelled from the spec: expansion "given a template name and a version
    string"; the pattern is the one the source registers under the name. *)
Definition expand_template (role v : string) : option string :=
  match url_pattern role with
  | Some pattern => expand pattern v
  | None => None
  end.

(** The role names registered in [extlinks]. *)
Definition template_names : list string := extlinks.*1.

(** Number of occurrences of the placeholder [%s] in a string. *)
Fixpoint count_placeholders (s : string) : nat :=
  match s with
  | EmptyString => 0
  | String c rest =>
      match rest with
      | EmptyString => 0
      | String d _ =>
          if Ascii.eqb c "%" && Ascii.eqb d "s"
          then S (count_placeholders rest)
          else count_placeholders rest
      end
  end.

(** Whether a string contains the character [%] at all. *)
Fixpoint has_percent (s : string) : bool :=
  match s with
  | EmptyString => false
  | String c rest => Ascii.eqb c "%" || has_percent rest
  end.

(** Whether a string starts with the conversion character [s]. *)
Definition starts_with_s (s : string) : bool :=
  match s with
  | EmptyString => false
  | String c _ => Ascii.eqb c "s"
  end.

(** ** Predicates on executions *)

(** The theme setting of a world, when bound, is one of the two identifiers
    of the enumeration. *)
Definition theme_in_enum (v : value) : bool :=
  eq_str v "default" || eq_str v "sphinx_rtd_theme".

Definition theme_ok (w : World) : Prop :=
  match globals w !! "html_theme" with
  | Some v => theme_in_enum v = true
  | None => True
  end.

(** [m] keeps the invariant [P]: from a world that satisfies it, every world
    it visits and the world it ends in satisfy it. *)
Definition preserves {A} (P : World -> Prop) (m : Exec A) : Prop :=
  forall w, P w -> Forall P (visited (m w)) /\ P (final (m w)).

(** [m] behaves the same from every world: it ends with outcome [o], lays
    the bindings [d] over the namespace and appends [h] to the registry of
    the host. *)
Definition uniform {A} (m : Exec A) (o : outcome A)
  (d : gmap string value) (h : list string) : Prop :=
  forall w,
    out (m w) = o
    /\ globals (final (m w)) = d ∪ globals w
    /\ stylesheets (host (final (m w))) = stylesheets (host w) ++ h.

(** The worlds a session passes through, starting from [w0]: the world it
    starts from and every world an assignment or a registration produces. *)
Definition reachable (env : Env) (w0 w : World) : Prop :=
  In w (w0 :: visited (session env w0)).

(** The names the module body assigns at module level, in source order.
    [sphinx_rtd_theme] and [html_theme_path] are assigned only inside the
    [try] block of lines 37-40. *)
Definition conf_names : list string :=
  [ "sys"; "os"; "on_rtd"; "extensions"; "templates_path";
    "exclude_patterns"; "source_suffix"; "master_doc"; "project";
    "copyright"; "last_stable"; "version"; "release"; "pygments_style";
    "rst_prolog"; "extlinks"; "html_theme"; "sphinx_rtd_theme";
    "html_theme_path"; "html_static_path"; "html_use_smartypants";
    "htmlhelp_basename"; "setup"; "latex_elements"; "latex_documents";
    "man_pages" ].

(** The names whose value the module body takes from the environment. *)
Definition env_dependent_names : list string :=
  [ "on_rtd"; "html_theme"; "sphinx_rtd_theme"; "html_theme_path" ].

(** Text without braces, which [str.format] copies as it is. *)
Fixpoint brace_free (s : string) : bool :=
  match s with
  | EmptyString => true
  | String c rest =>
      negb (Ascii.eqb c "{") && negb (Ascii.eqb c "}") && brace_free rest
  end.

(** The decimal digit [d] as a character. *)
Definition digit_char (d : nat) : ascii := ascii_of_nat (48 + d).

(** The exception that the probe of lines 37-42 lets through, if any: one
    raised by [get_html_theme_path()] that is not an [ImportError]. *)
Definition probe_raises (env : Env) : option exn :=
  match rtd_theme env with
  | Some (inl e) => if exn_eqb e ImportError then None else Some e
  | _ => None
  end.

(** The exception that escapes the module body, if any.  The probe is the
    only statement that can raise, and it runs off the hosted path only. *)
Definition escaping (env : Env) : option exn :=
  if on_rtd env then None else probe_raises env.

Definition outcome_of (e : option exn) : outcome unit :=
  match e with
  | None => Returned tt
  | Some e => Raised e
  end.

(** The names assigned by the lines after the probe (lines 44-83). *)
Definition names_after_probe : list string :=
  [ "html_static_path"; "html_use_smartypants"; "htmlhelp_basename"; "setup";
    "latex_elements"; "latex_documents"; "man_pages" ].

(** Environments used as concrete inputs. *)
Definition env_local_with_theme : Env :=
  mkEnv ∅ (Some (inr "/site-packages/sphinx_rtd_theme")).
Definition env_local_without_theme : Env := mkEnv ∅ None.
Definition env_hosted_with_theme : Env :=
  mkEnv {[ "READTHEDOCS" := "True" ]}
    (Some (inr "/site-packages/sphinx_rtd_theme")).
Definition env_hosted_without_theme : Env :=
  mkEnv {[ "READTHEDOCS" := "True" ]} None.
(** The theme package of a release that no longer has
    [get_html_theme_path]. *)
Definition env_local_broken_theme : Env := mkEnv ∅ (Some (inl AttributeError)).
Definition env_hosted_broken_theme : Env :=
  mkEnv {[ "READTHEDOCS" := "True" ]} (Some (inl AttributeError)).

(** * Properties *)

(** ** The execution monad *)

Lemma bind_returned {A B} (m : Exec A) (k : A -> Exec B) w a :
  out (m w) = Returned a ->
  final (bind m k w) = final (k a (final (m w)))
  /\ out (bind m k w) = out (k a (final (m w)))
  /\ visited (bind m k w) = visited (m w) ++ visited (k a (final (m w))).
Proof. intros Ho. unfold bind. rewrite Ho. done. Qed.

Lemma setup_final w :
  final (setup w)
  = mkWorld (globals w)
      (mkHost (stylesheets (host w) ++ ["theme_overrides.css"])).
Proof. reflexivity. Qed.

Lemma uniform_ret {A} (a : A) : uniform (ret a) (Returned a) ∅ [].
Proof.
  intros w; cbn. rewrite (left_id_L ∅ (∪)), app_nil_r. done.
Qed.

Lemma uniform_raise {A} (e : exn) : uniform (@raise A e) (Raised e) ∅ [].
Proof.
  intros w; cbn. rewrite (left_id_L ∅ (∪)), app_nil_r. done.
Qed.

Lemma uniform_set_global k v :
  uniform (set_global k v) (Returned tt) {[ k := v ]} [].
Proof.
  intros w; cbn. rewrite insert_union_singleton_l, app_nil_r. done.
Qed.

Lemma uniform_add_stylesheet f :
  uniform (add_stylesheet f) (Returned tt) ∅ [f].
Proof.
  intros w; cbn. rewrite (left_id_L ∅ (∪)). done.
Qed.

Lemma uniform_bind {A B} (m : Exec A) (k : A -> Exec B) a o d1 d2 h1 h2 :
  uniform m (Returned a) d1 h1 ->
  uniform (k a) o d2 h2 ->
  uniform (bind m k) o (d2 ∪ d1) (h1 ++ h2).
Proof.
  intros Hm Hk w. destruct (Hm w) as (Ho & Hg & Hh).
  destruct (Hk (final (m w))) as (Ho' & Hg' & Hh').
  unfold bind. rewrite Ho. cbn.
  rewrite Ho', Hg', Hg, Hh', Hh, (assoc_L (∪)), (assoc_L (++)). done.
Qed.

Lemma uniform_bind_raised {A B} (m : Exec A) (k : A -> Exec B) e d h :
  uniform m (Raised e) d h ->
  uniform (bind m k) (Raised e) d h.
Proof.
  intros Hm w. destruct (Hm w) as (Ho & Hg & Hh).
  unfold bind. rewrite Ho. cbn. done.
Qed.

Lemma uniform_try_returned {A} (body handler : Exec A) cls a d h :
  uniform body (Returned a) d h ->
  uniform (try_except body cls handler) (Returned a) d h.
Proof.
  intros Hb w. destruct (Hb w) as (Ho & Hg & Hh).
  unfold try_except. rewrite Ho. done.
Qed.

Lemma uniform_try_escaped {A} (body handler : Exec A) cls e d h :
  uniform body (Raised e) d h ->
  exn_eqb e cls = false ->
  uniform (try_except body cls handler) (Raised e) d h.
Proof.
  intros Hb He w. destruct (Hb w) as (Ho & Hg & Hh).
  unfold try_except. rewrite Ho, He. done.
Qed.

Lemma uniform_try_caught {A} (body handler : Exec A) cls e o d1 d2 h1 h2 :
  uniform body (Raised e) d1 h1 ->
  exn_eqb e cls = true ->
  uniform handler o d2 h2 ->
  uniform (try_except body cls handler) o (d2 ∪ d1) (h1 ++ h2).
Proof.
  intros Hb He Hh w. destruct (Hb w) as (Ho & Hg & Hs).
  destruct (Hh (final (body w))) as (Ho' & Hg' & Hs').
  unfold try_except. rewrite Ho, He. cbn.
  rewrite Ho', Hg', Hg, Hs', Hs, (assoc_L (∪)), (assoc_L (++)). done.
Qed.

(** A uniform action is determined by its run from the fresh world. *)
Lemma uniform_fresh {A} (m : Exec A) o d h :
  uniform m o d h ->
  o = out (m fresh) /\ d = globals (final (m fresh))
  /\ h = stylesheets (host (final (m fresh))).
Proof.
  intros Hm. destruct (Hm fresh) as (Ho & Hg & Hh). cbn in *.
  rewrite (right_id_L ∅ (∪)) in Hg. done.
Qed.

Lemma uniform_import_found env name m :
  find_module env name = Some m ->
  uniform (import_module env name) (Returned m) (∅ ∪ {[ name := VModule m ]}) ([] ++ []).
Proof.
  intros Hf. unfold import_module. rewrite Hf.
  eapply uniform_bind; [apply uniform_set_global | apply uniform_ret].
Qed.

Lemma uniform_import_missing env name :
  find_module env name = None ->
  uniform (import_module env name) (Raised ImportError) ∅ [].
Proof.
  intros Hf. unfold import_module. rewrite Hf. apply uniform_raise.
Qed.

Lemma rst_prolog_value :
  rst_prolog
  = inr (LF +:+ ".. |last_stable| replace:: :silhouette-doc:`1.0`" +:+ LF).
Proof. reflexivity. Qed.

Ltac uniform_step :=
  lazymatch goal with
  | |- uniform (set_global _ _) _ _ _ => apply uniform_set_global
  | |- uniform (ret _) _ _ _ => apply uniform_ret
  | |- uniform (add_stylesheet _) _ _ _ => apply uniform_add_stylesheet
  | |- uniform (import_module _ _) _ _ _ =>
      eapply uniform_import_found; reflexivity
  | |- uniform (bind _ _) _ _ _ => eapply uniform_bind
  end.

Lemma general_configuration_uniform env :
  exists d h, uniform (general_configuration env) (Returned tt) d h.
Proof.
  unfold general_configuration. rewrite rst_prolog_value. cbn [lift_result].
  do 2 eexists. repeat (uniform_step; cbv beta).
Qed.

(** The body of the [try] block when the package imports: line 38 binds
    the module, line 39 sets the theme, line 40 calls into the package. *)
Lemma theme_probe_body_uniform env t :
  rtd_theme env = Some t ->
  exists d h,
    uniform
      (m <- import_module env "sphinx_rtd_theme" ;;
       set_global "html_theme" (VStr "sphinx_rtd_theme") ;;
       p <- get_html_theme_path m ;;
       set_global "html_theme_path" (VList [VStr p]))
      (match t with inr _ => Returned tt | inl e => Raised e end) d h.
Proof.
  intros Ht.
  assert (Hfind : find_module env "sphinx_rtd_theme" = Some (ModRtdTheme t)).
  { cbn. rewrite Ht. reflexivity. }
  destruct t as [e|p]; do 2 eexists.
  - eapply uniform_bind; [eapply uniform_import_found, Hfind|]. cbv beta.
    eapply uniform_bind; [apply uniform_set_global|]. cbv beta.
    cbn [get_html_theme_path]. eapply uniform_bind_raised, uniform_raise.
  - eapply uniform_bind; [eapply uniform_import_found, Hfind|]. cbv beta.
    cbn [get_html_theme_path]. repeat (uniform_step; cbv beta).
Qed.

Lemma theme_probe_uniform env :
  exists d h, uniform (theme_probe env) (outcome_of (probe_raises env)) d h.
Proof.
  unfold theme_probe, probe_raises.
  destruct (rtd_theme env) as [t|] eqn:Ht.
  - destruct (theme_probe_body_uniform env t Ht) as (d & h & Hb).
    destruct t as [e|p].
    + destruct (exn_eqb e ImportError) eqn:He; cbn [outcome_of];
        do 2 eexists.
      * exact (uniform_try_caught _ _ ImportError e _ _ _ _ _
                 Hb He (uniform_ret tt)).
      * exact (uniform_try_escaped _ _ ImportError e _ _ Hb He).
    + cbn [outcome_of]. do 2 eexists. exact (uniform_try_returned _ _ _ _ _ _ Hb).
  - do 2 eexists.
    eapply (uniform_try_caught _ _ _ ImportError);
      [ | reflexivity | apply uniform_ret ].
    eapply uniform_bind_raised, uniform_import_missing.
    cbn. rewrite Ht. reflexivity.
Qed.

Lemma html_output_uniform env :
  exists d h, uniform (html_output env) (outcome_of (escaping env)) d h.
Proof.
  unfold html_output, escaping.
  destruct (theme_probe_uniform env) as (dp & hp & Hp).
  destruct (on_rtd env); cbn [negb].
  - do 2 eexists. repeat (uniform_step; cbv beta).
  - destruct (probe_raises env) as [e|]; cbn [outcome_of] in *; do 2 eexists.
    + eapply uniform_bind; [apply uniform_set_global |].
      eapply uniform_bind_raised, Hp.
    + eapply uniform_bind; [apply uniform_set_global |].
      eapply uniform_bind; [apply Hp |].
      repeat (uniform_step; cbv beta).
Qed.

Lemma latex_and_man_output_uniform :
  exists d h, uniform latex_and_man_output (Returned tt) d h.
Proof.
  unfold latex_and_man_output. do 2 eexists.
  repeat (uniform_step; cbv beta).
Qed.

Lemma conf_py_uniform env :
  exists d h, uniform (conf_py env) (outcome_of (escaping env)) d h.
Proof.
  destruct (general_configuration_uniform env) as (d1 & h1 & H1).
  destruct (html_output_uniform env) as (d2 & h2 & H2).
  destruct latex_and_man_output_uniform as (d3 & h3 & H3).
  unfold conf_py.
  destruct (escaping env) as [e|]; cbn [outcome_of] in *; do 2 eexists.
  - eapply uniform_bind; [apply H1 |].
    eapply uniform_bind_raised, H2.
  - eapply uniform_bind; [apply H1 |].
    eapply uniform_bind; [apply H2 | apply H3].
Qed.

(** The module body raises exactly what the probe lets through. *)
Lemma conf_py_out env w : out (conf_py env w) = outcome_of (escaping env).
Proof.
  destruct (conf_py_uniform env) as (d & h & H). apply (H w).
Qed.

Lemma conf_py_returns env w :
  escaping env = None -> out (conf_py env w) = Returned tt.
Proof. intros He. rewrite conf_py_out, He. reflexivity. Qed.

Lemma conf_py_raises env w e :
  escaping env = Some e -> out (conf_py env w) = Raised e.
Proof. intros He. rewrite conf_py_out, He. reflexivity. Qed.

Lemma escaping_not_installed env : rtd_theme env = None -> escaping env = None.
Proof.
  intros H. unfold escaping, probe_raises. rewrite H.
  destruct (on_rtd env); reflexivity.
Qed.

Lemma escaping_spec env e :
  escaping env = Some e
  <-> on_rtd env = false /\ rtd_theme env = Some (inl e) /\ e <> ImportError.
Proof.
  unfold escaping, probe_raises.
  destruct (on_rtd env); [split; [discriminate | intros [? _]; discriminate]|].
  destruct (rtd_theme env) as [[e'|p]|].
  - split.
    + destruct e'; cbn; [discriminate|..]; intros [= <-];
        (split; [reflexivity | split; [reflexivity | discriminate]]).
    + intros (_ & [= ->] & Hne). destruct e; cbn; congruence.
  - split; [discriminate | intros (_ & [=] & _)].
  - split; [discriminate | intros (_ & [=] & _)].
Qed.

(** The namespace it leaves is the one it leaves from the fresh world, laid
    over the namespace it started from. *)
Lemma conf_py_globals env w :
  globals (final (conf_py env w))
  = globals (final (conf_py env fresh)) ∪ globals w.
Proof.
  destruct (conf_py_uniform env) as (d & h & H).
  destruct (uniform_fresh _ _ _ _ H) as (_ & -> & _). apply (H w).
Qed.

(** Case analysis on the two facts of the environment the module depends
    on: the hosted flag and, off the hosted path, the theme package. *)
Ltac conf_cases env :=
  unfold conf_py, general_configuration, html_output, theme_probe,
    import_module, find_module, escaping, probe_raises;
  destruct (on_rtd env) eqn:?;
  [ | destruct (rtd_theme env) as [[[]|?]|] eqn:? ].

(** A setting that the fresh run binds is bound the same way from any
    starting world. *)
Lemma conf_py_lookup env w k v :
  globals (final (conf_py env fresh)) !! k = Some v ->
  globals (final (conf_py env w)) !! k = Some v.
Proof.
  intros Hk. rewrite conf_py_globals. by apply lookup_union_Some_l.
Qed.

(** When the module body returns, it has bound every setting the host
    reads, whatever the namespace it started from held. *)
Lemma settings_from_any_world env w :
  escaping env = None ->
  settings_of (globals (final (conf_py env w)))
  = settings_of (globals (final (conf_py env fresh))).
Proof.
  intros Hesc.
  assert (Hsome : forall k,
    is_Some (globals (final (conf_py env fresh)) !! k) ->
    globals (final (conf_py env w)) !! k
    = globals (final (conf_py env fresh)) !! k).
  { intros k [v Hv]. rewrite Hv. by apply conf_py_lookup. }
  unfold settings_of.
  rewrite !Hsome; [reflexivity | ..]; revert Hesc; conf_cases env;
    first [ discriminate | intros _; vm_compute; eauto ].
Qed.

(** ** Invariants along an execution *)

Section Preserves.
Context (P : World -> Prop).

Lemma preserves_ret {A} (a : A) : preserves P (ret a).
Proof. intros w Hw; cbn. split; [constructor | assumption]. Qed.

Lemma preserves_raise {A} (e : exn) : preserves P (@raise A e).
Proof. intros w Hw; cbn. split; [constructor | assumption]. Qed.

Lemma preserves_bind {A B} (m : Exec A) (k : A -> Exec B) :
  preserves P m -> (forall a, preserves P (k a)) -> preserves P (bind m k).
Proof.
  intros Hm Hk w Hw. destruct (Hm w Hw) as [Hv Hf].
  unfold bind. destruct (out (m w)) as [a|e]; cbn; [|done].
  destruct (Hk a _ Hf) as [Hv' Hf']. split; [|done].
  apply Forall_app; done.
Qed.

Lemma preserves_try_except {A} (body handler : Exec A) cls :
  preserves P body -> preserves P handler ->
  preserves P (try_except body cls handler).
Proof.
  intros Hb Hh w Hw. destruct (Hb w Hw) as [Hv Hf].
  unfold try_except. destruct (out (body w)) as [a|e]; [done|].
  destruct (exn_eqb e cls); [|done]. cbn.
  destruct (Hh _ Hf) as [Hv' Hf']. split; [|done].
  apply Forall_app; done.
Qed.

Lemma preserves_set_global k v :
  (forall w, P w -> P (mkWorld (<[k := v]> (globals w)) (host w))) ->
  preserves P (set_global k v).
Proof.
  intros Hs w Hw; cbn. split; [repeat constructor|]; auto.
Qed.

Lemma preserves_add_stylesheet f :
  (forall w, P w ->
     P (mkWorld (globals w) (mkHost (stylesheets (host w) ++ [f])))) ->
  preserves P (add_stylesheet f).
Proof.
  intros Hs w Hw; cbn. split; [repeat constructor|]; auto.
Qed.

Lemma preserves_import env name :
  (forall m w, P w -> P (mkWorld (<[name := VModule m]> (globals w)) (host w))) ->
  preserves P (import_module env name).
Proof.
  intros Hs. unfold import_module. destruct (find_module env name).
  - apply preserves_bind; [apply preserves_set_global; auto|].
    intros _. apply preserves_ret.
  - apply preserves_raise.
Qed.

Lemma preserves_get_html_theme_path m : preserves P (get_html_theme_path m).
Proof.
  destruct m as [| |[e|p]]; cbn; auto using preserves_ret, preserves_raise.
Qed.

Lemma preserves_lift_result {A} (r : exn + A) : preserves P (lift_result r).
Proof. destruct r; cbn; auto using preserves_ret, preserves_raise. Qed.
End Preserves.

(** *** The theme stays inside the enumeration *)

Lemma theme_ok_insert k v w :
  k <> "html_theme" \/ theme_in_enum v = true ->
  theme_ok w ->
  theme_ok (mkWorld (<[k := v]> (globals w)) (host w)).
Proof.
  unfold theme_ok; cbn. intros Hk Hw.
  destruct (decide (k = "html_theme")) as [->|Hne].
  - rewrite lookup_insert_eq. destruct Hk; [congruence | assumption].
  - rewrite lookup_insert_ne by assumption. assumption.
Qed.

Ltac theme_step :=
  lazymatch goal with
  | |- preserves _ (ret _) => apply preserves_ret
  | |- preserves _ (set_global _ _) =>
      apply preserves_set_global; intros ? ?; apply theme_ok_insert;
      [ first [ left; discriminate | right; reflexivity ] | assumption ]
  | |- preserves _ (import_module _ _) =>
      apply preserves_import; intros ? ? ?; apply theme_ok_insert;
      [ left; discriminate | assumption ]
  | |- preserves _ (get_html_theme_path _) =>
      apply preserves_get_html_theme_path
  | |- preserves _ (lift_result _) => apply preserves_lift_result
  | |- preserves _ (add_stylesheet _) =>
      apply preserves_add_stylesheet; intros ? ?; assumption
  | |- preserves _ (try_except _ _ _) => apply preserves_try_except
  | |- preserves _ (bind _ _) => apply preserves_bind; [ | intros ? ]
  end.

Lemma conf_py_theme_ok env : preserves theme_ok (conf_py env).
Proof.
  unfold conf_py, general_configuration, html_output, latex_and_man_output,
    theme_probe.
  destruct (on_rtd env); cbn [negb]; repeat theme_step.
Qed.

Lemma session_theme_ok env : preserves theme_ok (session env).
Proof.
  unfold session, setup. apply preserves_bind; [apply conf_py_theme_ok|].
  intros _. repeat theme_step.
Qed.

(** *** The module body leaves the host alone, the hook leaves the
    namespace alone *)

Ltac frame_step :=
  lazymatch goal with
  | |- preserves _ (ret _) => apply preserves_ret
  | |- preserves _ (set_global _ _) =>
      apply preserves_set_global; intros ? ?; assumption
  | |- preserves _ (import_module _ _) =>
      apply preserves_import; intros ? ? ?; assumption
  | |- preserves _ (get_html_theme_path _) =>
      apply preserves_get_html_theme_path
  | |- preserves _ (lift_result _) => apply preserves_lift_result
  | |- preserves _ (try_except _ _ _) => apply preserves_try_except
  | |- preserves _ (bind _ _) => apply preserves_bind; [ | intros ? ]
  end.

Lemma conf_py_host_frame env h :
  preserves (fun w => host w = h) (conf_py env).
Proof.
  unfold conf_py, general_configuration, html_output, latex_and_man_output,
    theme_probe.
  destruct (on_rtd env); cbn [negb]; repeat frame_step.
Qed.

Lemma conf_py_host env w : host (final (conf_py env w)) = host w.
Proof. by apply (conf_py_host_frame env (host w) w). Qed.

Lemma world_eq (a b : World) :
  globals a = globals b -> host a = host b -> a = b.
Proof. destruct a, b; cbn; congruence. Qed.

Lemma theme_in_enum_spec v :
  theme_in_enum v = true <-> v = VStr "default" \/ v = VStr "sphinx_rtd_theme".
Proof.
  unfold theme_in_enum, eq_str. split.
  - destruct v; try discriminate. intros H.
    apply orb_true_iff in H as [H|H]; apply String.eqb_eq in H; subst; auto.
  - intros [->| ->]; reflexivity.
Qed.

Lemma htmlTheme_settings (g : gmap string value) :
  htmlTheme (outputOptions (settings_of g)) = g !! "html_theme".
Proof. reflexivity. Qed.

Lemma load_out env w :
  load env w
  = match escaping env with
    | None => Returned (settings_of (globals (final (conf_py env w))))
    | Some e => Raised e
    end.
Proof.
  unfold load. cbv zeta. rewrite conf_py_out.
  destruct (escaping env); reflexivity.
Qed.

Lemma load_returns env w :
  escaping env = None ->
  load env w = Returned (settings_of (globals (final (conf_py env w)))).
Proof. intros He. rewrite load_out, He. reflexivity. Qed.

Lemma load_raises env w e : escaping env = Some e -> load env w = Raised e.
Proof. intros He. rewrite load_out, He. reflexivity. Qed.

Lemma conf_py_html_theme env w :
  globals (final (conf_py env w)) !! "html_theme"
  = Some (VStr (if on_rtd env then "default"
                else match rtd_theme env with
                     | Some _ => "sphinx_rtd_theme"
                     | None => "default"
                     end)).
Proof.
  apply conf_py_lookup. conf_cases env; vm_compute; reflexivity.
Qed.

Lemma bind_raised {A B} (m : Exec A) (k : A -> Exec B) w e :
  out (m w) = Raised e ->
  final (bind m k w) = final (m w)
  /\ out (bind m k w) = Raised e
  /\ visited (bind m k w) = visited (m w).
Proof. intros Ho. unfold bind. rewrite Ho. done. Qed.

Lemma session_final env w :
  escaping env = None ->
  final (session env w) = final (setup (final (conf_py env w))).
Proof.
  intros He. unfold session.
  exact (proj1 (bind_returned _ _ _ _ (conf_py_returns env w He))).
Qed.

Lemma session_final_raised env w e :
  escaping env = Some e ->
  final (session env w) = final (conf_py env w).
Proof.
  intros He. unfold session.
  exact (proj1 (bind_raised _ _ _ _ (conf_py_raises env w e He))).
Qed.

Lemma setup_globals w : globals (final (setup w)) = globals w.
Proof. reflexivity. Qed.

Lemma session_globals env w :
  globals (final (session env w)) = globals (final (conf_py env w)).
Proof.
  destruct (escaping env) as [e|] eqn:He.
  - rewrite (session_final_raised env w e He). reflexivity.
  - rewrite (session_final env w He). apply setup_globals.
Qed.

Lemma theme_ok_unset w : globals w !! "html_theme" = None -> theme_ok w.
Proof. intros H. unfold theme_ok. rewrite H. exact I. Qed.

Lemma theme_ok_lookup w v :
  theme_ok w -> globals w !! "html_theme" = Some v ->
  v = VStr "default" \/ v = VStr "sphinx_rtd_theme".
Proof.
  unfold theme_ok. intros Hok Hv. rewrite Hv in Hok.
  apply theme_in_enum_spec. exact Hok.
Qed.

Lemma reachable_inv env w0 w :
  reachable env w0 w -> w = w0 \/ In w (visited (session env w0)).
Proof.
  unfold reachable. intros H. apply in_inv in H. destruct H; auto.
Qed.

(** ** The theme selection *)

Example theme_local_with_theme :
  resolveTheme env_local_with_theme fresh = Some (VStr "sphinx_rtd_theme").
Proof. vm_compute. reflexivity. Qed.

Example theme_local_without_theme :
  resolveTheme env_local_without_theme fresh = Some (VStr "default").
Proof. vm_compute. reflexivity. Qed.

Example theme_hosted_with_theme :
  resolveTheme env_hosted_with_theme fresh = Some (VStr "default").
Proof. vm_compute. reflexivity. Qed.

Example theme_hosted_without_theme :
  resolveTheme env_hosted_without_theme fresh = Some (VStr "default").
Proof. vm_compute. reflexivity. Qed.

(** The theme path is bound only when the probe finds the module. *)
Example theme_path_local_with_theme :
  globals (final (conf_py env_local_with_theme fresh)) !! "html_theme_path"
  = Some (VList [VStr "/site-packages/sphinx_rtd_theme"])
  /\ globals (final (conf_py env_hosted_with_theme fresh)) !! "html_theme_path"
     = None.
Proof. split; vm_compute; reflexivity. Qed.

(** With a theme package whose [get_html_theme_path()] raises
    AttributeError, a local build stops at line 40; a hosted build never
    gets there. *)
Example load_local_broken_theme :
  load env_local_broken_theme fresh = Raised AttributeError
  /\ resolveTheme env_local_broken_theme fresh
     = Some (VStr "sphinx_rtd_theme")
  /\ globals (final (conf_py env_local_broken_theme fresh)) !! "setup" = None.
Proof. repeat split; vm_compute; reflexivity. Qed.

Example load_hosted_broken_theme :
  out (conf_py env_hosted_broken_theme fresh) = Returned tt
  /\ resolveTheme env_hosted_broken_theme fresh = Some (VStr "default").
Proof. split; vm_compute; reflexivity. Qed.

(** A session from the fresh world passes through 28 worlds after it. *)
Example session_trace_length :
  List.length (visited (session env_local_with_theme fresh)) = 28.
Proof. vm_compute. reflexivity. Qed.

(** C1, as amended: the theme is 'sphinx_rtd_theme' exactly when the build is
    not hosted (READTHEDOCS is not 'True') and the optional module can be
    imported; it is 'default' when the module cannot be imported and also
    whenever the build is hosted, where the probe is skipped. *)
Theorem resolveTheme_by_environment (env : Env) (w : World) :
  resolveTheme env w
  = Some (VStr (if on_rtd env then "default"
                else match rtd_theme env with
                     | Some _ => "sphinx_rtd_theme"
                     | None => "default"
                     end)).
Proof. exact (conf_py_html_theme env w). Qed.

(** C1, as stated, fails in a hosted build: with READTHEDOCS set to 'True'
    the module can be imported and the theme is still 'default'. *)
Lemma resolveTheme_hosted_counterexample :
  rtd_theme env_hosted_with_theme
  = Some (inr "/site-packages/sphinx_rtd_theme")
  /\ resolveTheme env_hosted_with_theme fresh = Some (VStr "default")
  /\ ~ (forall env w,
          (is_Some (rtd_theme env) ->
           resolveTheme env w = Some (VStr "sphinx_rtd_theme"))
          /\ (rtd_theme env = None ->
              resolveTheme env w = Some (VStr "default"))).
Proof.
  split; [reflexivity|]. split; [vm_compute; reflexivity|].
  intros H. destruct (H env_hosted_with_theme fresh) as [Hpresent _].
  assert (Hs : is_Some (rtd_theme env_hosted_with_theme)) by (cbn; eauto).
  specialize (Hpresent Hs). vm_compute in Hpresent. discriminate.
Qed.

(** ** Project metadata *)






(** ** Recovery from a failed probe *)

(** C5: when importing the theme module raises ImportError, the probe
    returns normally and leaves the world exactly as it found it, and the
    load succeeds with the default theme. *)
Theorem failed_probe_recovers (env : Env) (w : World) :
  rtd_theme env = None ->
  theme_probe env w = mkResult (Returned tt) w []
  /\ out (conf_py env w) = Returned tt
  /\ exists s,
       load env w = Returned s
       /\ htmlTheme (outputOptions s) = Some (VStr "default").
Proof.
  intros Hnone. split; [|split].
  - assert (Hfind : find_module env "sphinx_rtd_theme" = None).
    { unfold find_module. rewrite Hnone. reflexivity. }
    unfold theme_probe, try_except, bind, import_module.
    rewrite Hfind. reflexivity.
  - apply conf_py_returns, escaping_not_installed, Hnone.
  - rewrite load_returns by (apply escaping_not_installed, Hnone).
    eexists; split; [reflexivity|].
    rewrite htmlTheme_settings, conf_py_html_theme, Hnone.
    destruct (on_rtd env); reflexivity.
Qed.

Lemma failed_probe_recovers_witness :
  rtd_theme env_local_without_theme = None
  /\ theme_probe env_local_without_theme fresh = mkResult (Returned tt) fresh []
  /\ out (conf_py env_local_without_theme fresh) = Returned tt
  /\ exists s,
       load env_local_without_theme fresh = Returned s
       /\ htmlTheme (outputOptions s) = Some (VStr "default").
Proof.
  split; [reflexivity|].
  apply (failed_probe_recovers env_local_without_theme fresh). reflexivity.
Defined.

(** ** The theme enumeration as an invariant *)

(** C6: from a world where the theme is not yet set, every world a session
    reaches binds the theme, if at all, to 'default' or 'sphinx_rtd_theme',
    and the session ends with the theme bound. *)
Theorem html_theme_in_enumeration (env : Env) (w0 : World) :
  globals w0 !! "html_theme" = None ->
  (forall w v,
     reachable env w0 w ->
     globals w !! "html_theme" = Some v ->
     v = VStr "default" \/ v = VStr "sphinx_rtd_theme")
  /\ exists v,
       globals (final (session env w0)) !! "html_theme" = Some v
       /\ (v = VStr "default" \/ v = VStr "sphinx_rtd_theme").
Proof.
  intros Hunset.
  destruct (session_theme_ok env w0 (theme_ok_unset w0 Hunset))
    as [Hvisited Hfinal].
  split.
  - intros w v Hreach Hv.
    apply reachable_inv in Hreach as [->|Hin].
    + rewrite Hunset in Hv. discriminate.
    + rewrite Forall_forall in Hvisited.
      apply list_elem_of_In in Hin.
      exact (theme_ok_lookup w v (Hvisited w Hin) Hv).
  - rewrite session_globals, conf_py_html_theme.
    eexists; split; [reflexivity|].
    destruct (on_rtd env), (rtd_theme env); auto.
Qed.

Lemma html_theme_in_enumeration_witness :
  globals fresh !! "html_theme" = None
  /\ exists v,
       globals (final (session env_local_with_theme fresh)) !! "html_theme"
       = Some v
       /\ (v = VStr "default" \/ v = VStr "sphinx_rtd_theme").
Proof.
  split; [reflexivity|].
  apply (html_theme_in_enumeration env_local_with_theme fresh). reflexivity.
Defined.

(** ** Repeated loading *)

Lemma conf_py_final_fixed env w :
  final (conf_py env (final (conf_py env w))) = final (conf_py env w).
Proof.
  apply world_eq.
  - rewrite (conf_py_globals env (final (conf_py env w))).
    rewrite (conf_py_globals env w).
    rewrite (assoc_L (∪)), (idemp_L (∪)). reflexivity.
  - apply conf_py_host.
Qed.

Lemma load_any_world env w w' : load env w = load env w'.
Proof.
  rewrite !load_out. destruct (escaping env) as [e|] eqn:He; [reflexivity|].
  rewrite (settings_from_any_world env w He),
    (settings_from_any_world env w' He). reflexivity.
Qed.

(** C7: for a fixed environment, loading is idempotent.  A second load in
    the world the first one left returns the same settings; so does a load
    from any other world (after any number of loads and hook calls); and
    the second load leaves the world as the first one left it.  Where the
    load raises, every load raises the same exception and stops in the same
    world. *)
Theorem load_idempotent (env : Env) (w : World) :
  load env (final (conf_py env w)) = load env w
  /\ (forall w', load env w' = load env w)
  /\ final (conf_py env (final (conf_py env w))) = final (conf_py env w).
Proof.
  split; [apply load_any_world | split].
  - intros w'. apply load_any_world.
  - apply conf_py_final_fixed.
Qed.

(** ** The setup hook *)

(** C8: the hook returns None, appends exactly the one stylesheet
    'theme_overrides.css' to the registry of the host, changes the world
    once, and leaves the module namespace, hence every setting, unchanged. *)
Theorem setup_registers_one_stylesheet (w : World) :
  out (setup w) = Returned VNone
  /\ stylesheets (host (final (setup w)))
     = stylesheets (host w) ++ ["theme_overrides.css"]
  /\ globals (final (setup w)) = globals w
  /\ visited (setup w) = [final (setup w)]
  /\ settings_of (globals (final (setup w))) = settings_of (globals w).
Proof. repeat split. Qed.

(** ** Detection of the hosted build *)

Lemma on_rtd_true_iff env :
  on_rtd env = true <-> environ env !! "READTHEDOCS" = Some "True".
Proof.
  unfold on_rtd, environ_get, eq_str.
  destruct (environ env !! "READTHEDOCS") as [s|].
  - rewrite String.eqb_eq. split; congruence.
  - split; discriminate.
Qed.

(** ** Placeholders in link templates *)

Lemma split_placeholder_sound pattern :
  forall base trailing,
    split_placeholder pattern = Some (base, trailing) ->
    pattern = base +:+ "%s" +:+ trailing.
Proof.
  induction pattern as [|c rest IH]; intros base trailing Hs; [discriminate|].
  cbn [split_placeholder] in Hs. destruct rest as [|d rest']; [discriminate|].
  destruct (Ascii.eqb c "%" && Ascii.eqb d "s") eqn:Hcd.
  - apply andb_true_iff in Hcd as [Hc Hd].
    apply Ascii.eqb_eq in Hc, Hd. subst c d.
    injection Hs as <- <-. reflexivity.
  - destruct (split_placeholder (String d rest')) as [[b t]|] eqn:Hrec;
      [|discriminate].
    injection Hs as <- <-.
    change (String c b +:+ "%s" +:+ t) with (String c (b +:+ "%s" +:+ t)).
    f_equal. apply IH. reflexivity.
Qed.

Lemma count_placeholders_cons c rest :
  Ascii.eqb c "%" = false ->
  count_placeholders (String c rest) = count_placeholders rest.
Proof.
  intros Hc. cbn [count_placeholders]. rewrite Hc. cbn [andb].
  destruct rest; reflexivity.
Qed.

Lemma count_placeholders_skip base x :
  has_percent base = false ->
  count_placeholders (base +:+ x) = count_placeholders x.
Proof.
  induction base as [|c base IH]; intros Hb; [reflexivity|].
  cbn [has_percent] in Hb. apply orb_false_iff in Hb as [Hc Hb].
  change (String c base +:+ x) with (String c (base +:+ x)).
  rewrite count_placeholders_cons by exact Hc. apply IH, Hb.
Qed.

Lemma count_placeholders_no_percent s :
  has_percent s = false -> count_placeholders s = 0.
Proof.
  induction s as [|c s IH]; intros Hs; [reflexivity|].
  cbn [has_percent] in Hs. apply orb_false_iff in Hs as [Hc Hs].
  rewrite count_placeholders_cons by exact Hc. apply IH, Hs.
Qed.

Lemma count_placeholders_cons2 c d x :
  count_placeholders (String c (String d x))
  = if Ascii.eqb c "%" && Ascii.eqb d "s"
    then S (count_placeholders (String d x))
    else count_placeholders (String d x).
Proof. reflexivity. Qed.

Lemma count_placeholders_app v t :
  starts_with_s t = false ->
  count_placeholders (v +:+ t) = count_placeholders v + count_placeholders t.
Proof.
  intros Ht. induction v as [|c v IH]; [reflexivity|].
  destruct v as [|d v'].
  - change (String c "" +:+ t) with (String c t).
    destruct t as [|e t']; [reflexivity|].
    cbn [starts_with_s] in Ht.
    rewrite count_placeholders_cons2, Ht, andb_false_r. reflexivity.
  - change (String c (String d v') +:+ t)
      with (String c (String d (v' +:+ t))).
    change (String d v' +:+ t) with (String d (v' +:+ t)) in IH.
    rewrite (count_placeholders_cons2 c d (v' +:+ t)),
      (count_placeholders_cons2 c d v'), IH.
    destruct (Ascii.eqb c "%" && Ascii.eqb d "s"); reflexivity.
Qed.

(** The dict literal of the source has no repeated key, so reading it as a
    map loses nothing. *)
Lemma template_names_distinct : NoDup template_names.
Proof.
  unfold template_names. cbn.
  repeat (constructor;
          [rewrite ?elem_of_cons, elem_of_nil; intuition discriminate|]).
  constructor.
Qed.

Lemma template_names_value :
  template_names
  = ["silhouette-doc"; "silhouette-api-doc"; "silhouette-htmlzip-doc";
     "silhouette-pdf-doc"; "silhouette-epub-doc"].
Proof. reflexivity. Qed.

Lemma expand_split pattern base trailing v :
  split_placeholder pattern = Some (base, trailing) ->
  expand pattern v = Some (base +:+ v +:+ trailing).
Proof. intros Hs. unfold expand. rewrite Hs. reflexivity. Qed.

(** What expansion does for a role whose pattern splits into a base without
    any [%] and a trailing segment without placeholder that does not start
    with [s]. *)
Lemma expand_template_of_split role pattern base trailing v :
  url_pattern role = Some pattern ->
  split_placeholder pattern = Some (base, trailing) ->
  has_percent base = false ->
  has_percent trailing = false ->
  starts_with_s trailing = false ->
  url_pattern role = Some (base +:+ "%s" +:+ trailing)
  /\ count_placeholders (base +:+ "%s" +:+ trailing) = 1
  /\ expand_template role v = Some (base +:+ v +:+ trailing)
  /\ count_placeholders base = 0
  /\ count_placeholders trailing = 0
  /\ count_placeholders (base +:+ v +:+ trailing) = count_placeholders v.
Proof.
  intros Hurl Hsplit Hbase Htrail Hs.
  pose proof (split_placeholder_sound _ _ _ Hsplit) as Hpat.
  pose proof (count_placeholders_no_percent _ Htrail) as Ht0.
  repeat split.
  - rewrite Hurl, Hpat. reflexivity.
  - rewrite count_placeholders_skip by exact Hbase.
    rewrite (count_placeholders_app "%s" trailing Hs), Ht0. reflexivity.
  - unfold expand_template. rewrite Hurl. apply expand_split, Hsplit.
  - apply count_placeholders_no_percent, Hbase.
  - exact Ht0.
  - rewrite count_placeholders_skip by exact Hbase.
    rewrite (count_placeholders_app v trailing Hs), Ht0. lia.
Qed.

(** C2: for each of the five roles of [extlinks] and every version string
    [v], the URL pattern holds exactly one placeholder, between a base and a
    trailing segment that hold none; expansion puts [v] in its place, once;
    no placeholder of the pattern is left, so the result holds a [%s] only
    where [v] itself does. *)
Theorem expand_template_substitutes_once (role v : string) :
  In role template_names ->
  exists base trailing,
    url_pattern role = Some (base +:+ "%s" +:+ trailing)
    /\ count_placeholders (base +:+ "%s" +:+ trailing) = 1
    /\ expand_template role v = Some (base +:+ v +:+ trailing)
    /\ count_placeholders base = 0
    /\ count_placeholders trailing = 0
    /\ count_placeholders (base +:+ v +:+ trailing) = count_placeholders v.
Proof.
  rewrite template_names_value. intros Hrole.
  repeat (destruct Hrole as [<-|Hrole]); [..|destruct Hrole];
    do 2 eexists;
    (eapply expand_template_of_split; [vm_compute; reflexivity..]).
Qed.

Lemma expand_template_substitutes_once_witness :
  In "silhouette-pdf-doc" template_names
  /\ exists base trailing,
       url_pattern "silhouette-pdf-doc" = Some (base +:+ "%s" +:+ trailing)
       /\ count_placeholders (base +:+ "%s" +:+ trailing) = 1
       /\ expand_template "silhouette-pdf-doc" "latest"
          = Some (base +:+ "latest" +:+ trailing)
       /\ count_placeholders base = 0
       /\ count_placeholders trailing = 0
       /\ count_placeholders (base +:+ "latest" +:+ trailing)
          = count_placeholders "latest".
Proof.
  assert (Hin : In "silhouette-pdf-doc" template_names)
    by (vm_compute; tauto).
  split; [exact Hin|].
  exact (expand_template_substitutes_once "silhouette-pdf-doc" "latest" Hin).
Defined.

(** A version that itself spells [%s] is put in like any other; the [%s] of
    the result is then the version's own text, not a placeholder of the
    pattern. *)
Example expand_version_with_percent :
  expand_template "silhouette-doc" "%s"
  = Some "http://docs.silhouette.mohiva.com/%s/".
Proof. vm_compute. reflexivity. Qed.

Example expand_unknown_role : expand_template "silhouette-src" "1.0" = None.
Proof. vm_compute. reflexivity. Qed.

(** C3: expansion is base URL, then version, then trailing segment:
    'silhouette-doc' with '1.0' and 'silhouette-api-doc' with '2.0' give the
    URLs of the claim, and so for every version. *)
Theorem expand_template_examples :
  url_pattern "silhouette-doc" = Some "http://docs.silhouette.mohiva.com/%s/"
  /\ expand_template "silhouette-doc" "1.0"
     = Some "http://docs.silhouette.mohiva.com/1.0/"
  /\ url_pattern "silhouette-api-doc"
     = Some "http://silhouette.mohiva.com/api/%s/"
  /\ expand_template "silhouette-api-doc" "2.0"
     = Some "http://silhouette.mohiva.com/api/2.0/"
  /\ (forall v,
        expand_template "silhouette-doc" v
        = Some ("http://docs.silhouette.mohiva.com/" +:+ v +:+ "/"))
  /\ (forall v,
        expand_template "silhouette-api-doc" v
        = Some ("http://silhouette.mohiva.com/api/" +:+ v +:+ "/")).
Proof.
  repeat split; try (vm_compute; reflexivity);
    intros v; unfold expand_template;
    match goal with
    | |- context [url_pattern ?r] =>
        let p := eval vm_compute in (url_pattern r) in
        change (url_pattern r) with p
    end; cbv iota beta; apply expand_split; vm_compute; reflexivity.
Qed.

(** ** The probe on the local and on the hosted path *)

Lemma conf_py_lookup_untouched env w k :
  globals (final (conf_py env fresh)) !! k = None ->
  globals (final (conf_py env w)) !! k = globals w !! k.
Proof.
  intros Hk. rewrite conf_py_globals. by apply lookup_union_r.
Qed.

Lemma probe_binds_module env w p :
  on_rtd env = false -> rtd_theme env = Some p ->
  globals (final (conf_py env w)) !! "sphinx_rtd_theme"
  = Some (VModule (ModRtdTheme p)).
Proof.
  intros Hrtd Hp. apply conf_py_lookup.
  unfold conf_py, general_configuration, html_output, theme_probe,
    import_module, find_module.
  rewrite Hrtd, Hp. destruct p as [[]|p]; vm_compute; reflexivity.
Qed.

Lemma hosted_skips_probe env w :
  on_rtd env = true ->
  globals (final (conf_py env w)) !! "sphinx_rtd_theme"
  = globals w !! "sphinx_rtd_theme".
Proof.
  intros Hrtd. apply conf_py_lookup_untouched.
  unfold conf_py, general_configuration, html_output, theme_probe,
    import_module, find_module.
  rewrite Hrtd. vm_compute. reflexivity.
Qed.

(** C9: [on_rtd] holds exactly when READTHEDOCS is set to the string
    'True'; 'true', '1' and an unset variable give the local path, on which
    the probe runs: the theme is what the probe finds and a found module is
    bound.  On the hosted path the theme stays 'default' and the module name
    is left as it was. *)
Theorem on_rtd_exact_comparison (env : Env) :
  (on_rtd env = true <-> environ env !! "READTHEDOCS" = Some "True")
  /\ (forall t,
        on_rtd (mkEnv {[ "READTHEDOCS" := "true" ]} t) = false
        /\ on_rtd (mkEnv {[ "READTHEDOCS" := "1" ]} t) = false
        /\ on_rtd (mkEnv ∅ t) = false)
  /\ (forall w,
        on_rtd env = false ->
        globals (final (conf_py env w)) !! "html_theme"
        = Some (VStr (match rtd_theme env with
                      | Some _ => "sphinx_rtd_theme"
                      | None => "default"
                      end)))
  /\ (forall w p,
        on_rtd env = false -> rtd_theme env = Some p ->
        globals (final (conf_py env w)) !! "sphinx_rtd_theme"
        = Some (VModule (ModRtdTheme p)))
  /\ (forall w,
        on_rtd env = true ->
        globals (final (conf_py env w)) !! "html_theme"
        = Some (VStr "default")
        /\ globals (final (conf_py env w)) !! "sphinx_rtd_theme"
           = globals w !! "sphinx_rtd_theme").
Proof.
  split; [apply on_rtd_true_iff|]. split; [|split; [|split]].
  - intros t. repeat split; vm_compute; reflexivity.
  - intros w Hrtd. rewrite conf_py_html_theme, Hrtd. reflexivity.
  - intros w p. apply probe_binds_module.
  - intros w Hrtd. split.
    + rewrite conf_py_html_theme, Hrtd. reflexivity.
    + apply hosted_skips_probe, Hrtd.
Qed.

(** ** The document prolog *)

Lemma rst_prolog_format a b :
  format rst_prolog_template [a; b]
  = inr (LF +:+ ".. |last_stable| replace:: :silhouette-doc:`" +:+ a
         +:+ "`" +:+ LF).
Proof. vm_compute. reflexivity. Qed.

Lemma conf_py_rst_prolog env w :
  globals (final (conf_py env w)) !! "rst_prolog"
  = Some (VStr (LF +:+ ".. |last_stable| replace:: :silhouette-doc:`1.0`"
                +:+ LF)).
Proof.
  apply conf_py_lookup. conf_cases env; vm_compute; reflexivity.
Qed.

(** C10: the prolog is the template with [last_stable] ('1.0') in the place
    of [{0}]; the second argument of the call has no influence, and the
    release '2.0-SNAPSHOT' does not occur in the text. *)
Theorem rst_prolog_uses_only_last_stable :
  rst_prolog
  = inr (LF +:+ ".. |last_stable| replace:: :silhouette-doc:`1.0`" +:+ LF)
  /\ (forall a b,
        format rst_prolog_template [a; b]
        = inr (LF +:+ ".. |last_stable| replace:: :silhouette-doc:`" +:+ a
               +:+ "`" +:+ LF))
  /\ (forall other,
        format rst_prolog_template [last_stable; other] = rst_prolog)
  /\ match rst_prolog with
     | inr text => contains release text = false
     | inl _ => False
     end
  /\ (forall env w,
        globals (final (conf_py env w)) !! "rst_prolog"
        = Some (VStr (LF +:+ ".. |last_stable| replace:: :silhouette-doc:`1.0`"
                      +:+ LF))).
Proof.
  split; [apply rst_prolog_value|]. split; [apply rst_prolog_format|].
  split; [|split].
  - intros other. rewrite rst_prolog_format, rst_prolog_value. reflexivity.
  - vm_compute. reflexivity.
  - apply conf_py_rst_prolog.
Qed.

(** * Further properties of the module body *)

(** ** The theme path (lines 36-42) *)

Lemma conf_py_html_theme_path env w :
  globals (final (conf_py env w)) !! "html_theme_path"
  = match on_rtd env, rtd_theme env with
    | false, Some (inr p) => Some (VList [VStr p])
    | _, _ => globals w !! "html_theme_path"
    end.
Proof.
  destruct (on_rtd env) eqn:Hrtd;
    [ | destruct (rtd_theme env) as [[[]|p]|] eqn:Hp ].
  1-5,7: apply conf_py_lookup_untouched;
    unfold conf_py, general_configuration, html_output, theme_probe,
      import_module, find_module;
    rewrite Hrtd, ?Hp; vm_compute; reflexivity.
  apply conf_py_lookup.
  unfold conf_py, general_configuration, html_output, theme_probe,
    import_module, find_module.
  rewrite Hrtd, Hp. vm_compute. reflexivity.
Qed.

(** X1: [html_theme_path] is assigned exactly when the probe runs, the
    package imports and its [get_html_theme_path()] returns, to the
    one-element list of the path returned; on every other path (hosted
    build, package not installed, call raising) the module body leaves the
    name as it found it. *)
Theorem html_theme_path_follows_probe (env : Env) (w : World) :
  globals (final (conf_py env w)) !! "html_theme_path"
  = match on_rtd env, rtd_theme env with
    | false, Some (inr p) => Some (VList [VStr p])
    | _, _ => globals w !! "html_theme_path"
    end.
Proof. exact (conf_py_html_theme_path env w). Qed.

(** X2: loaded into a namespace without theme path, a module that ends with
    a theme path bound has selected 'sphinx_rtd_theme'.  The converse holds
    unless the call of line 40 raised: line 39 has then switched the theme
    already and line 40 has bound no path. *)
Theorem theme_path_implies_rtd_theme (env : Env) (w : World) :
  globals w !! "html_theme_path" = None ->
  (is_Some (globals (final (conf_py env w)) !! "html_theme_path")
   -> globals (final (conf_py env w)) !! "html_theme"
      = Some (VStr "sphinx_rtd_theme"))
  /\ (globals (final (conf_py env w)) !! "html_theme"
      = Some (VStr "sphinx_rtd_theme")
      -> is_Some (globals (final (conf_py env w)) !! "html_theme_path")
         \/ exists e, on_rtd env = false /\ rtd_theme env = Some (inl e))
  /\ (forall e,
        on_rtd env = false -> rtd_theme env = Some (inl e) ->
        globals (final (conf_py env w)) !! "html_theme"
        = Some (VStr "sphinx_rtd_theme")
        /\ globals (final (conf_py env w)) !! "html_theme_path" = None).
Proof.
  intros Hw. rewrite conf_py_html_theme_path, conf_py_html_theme, Hw.
  destruct (on_rtd env), (rtd_theme env) as [[e|p]|];
    (split; [|split]);
    solve [ intros [? ?]; discriminate
          | intros [=]
          | intros ? [=]
          | intros ? _ [=]
          | intros ? _ _; split; reflexivity
          | intros _; reflexivity
          | intros _; left; eexists; reflexivity
          | intros _; right; exists e; split; reflexivity ].
Qed.

Lemma theme_path_implies_rtd_theme_witness :
  globals fresh !! "html_theme_path" = None
  /\ globals (final (conf_py env_local_broken_theme fresh)) !! "html_theme"
     = Some (VStr "sphinx_rtd_theme")
  /\ globals (final (conf_py env_local_broken_theme fresh))
     !! "html_theme_path" = None.
Proof.
  assert (Hw : globals fresh !! "html_theme_path" = None) by reflexivity.
  split; [exact Hw|].
  exact (proj2 (proj2 (theme_path_implies_rtd_theme
                         env_local_broken_theme fresh Hw))
           AttributeError eq_refl eq_refl).
Defined.

(** ** The host during loading and after the hook *)

(** X3: the module body never touches the host application: in every world
    it passes through, and in the one it ends in, the host is the one it
    started with.  Only the hook registers anything. *)
Theorem conf_py_never_touches_host (env : Env) (w : World) :
  Forall (fun w' => host w' = host w) (visited (conf_py env w))
  /\ host (final (conf_py env w)) = host w.
Proof. exact (conf_py_host_frame env (host w) w eq_refl). Qed.

Lemma session_out env w :
  escaping env = None -> out (session env w) = Returned VNone.
Proof.
  intros He. unfold session.
  rewrite (proj1 (proj2 (bind_returned _ _ _ _ (conf_py_returns env w He)))).
  reflexivity.
Qed.

Lemma session_out_raised env w e :
  escaping env = Some e -> out (session env w) = Raised e.
Proof.
  intros He. unfold session.
  exact (proj1 (proj2 (bind_raised _ _ _ _ (conf_py_raises env w e He)))).
Qed.

Lemma setup_stylesheets w :
  stylesheets (host (final (setup w)))
  = stylesheets (host w) ++ ["theme_overrides.css"].
Proof. reflexivity. Qed.

(** X4: a whole session is the module body, then one call of the hook.
    When the module body returns, the session returns None, leaves the
    registry of the host longer by exactly the stylesheet
    'theme_overrides.css' and hands over the settings the load returns.
    When the module body raises, the session raises the same exception, the
    hook is never reached and the registry stays as it was.  Either way the
    namespace is the one the module body leaves. *)
Theorem session_registers_one_stylesheet (env : Env) (w : World) :
  match out (conf_py env w) with
  | Returned _ =>
      out (session env w) = Returned VNone
      /\ stylesheets (host (final (session env w)))
         = stylesheets (host w) ++ ["theme_overrides.css"]
      /\ Returned (settings_of (globals (final (session env w)))) = load env w
  | Raised e =>
      out (session env w) = Raised e
      /\ stylesheets (host (final (session env w))) = stylesheets (host w)
      /\ load env w = Raised e
  end
  /\ globals (final (session env w)) = globals (final (conf_py env w)).
Proof.
  split; [|apply session_globals].
  rewrite conf_py_out. destruct (escaping env) as [e|] eqn:He; cbn [outcome_of].
  - split; [exact (session_out_raised env w e He)|]. split.
    + rewrite (session_final_raised env w e He), conf_py_host. reflexivity.
    + exact (load_raises env w e He).
  - split; [exact (session_out env w He)|]. split.
    + rewrite (session_final env w He), setup_stylesheets, conf_py_host.
      reflexivity.
    + rewrite session_globals, (load_returns env w He). reflexivity.
Qed.

(** ** A call of line 40 that raises *)

Lemma conf_py_trace_length_raised env w e :
  on_rtd env = false -> rtd_theme env = Some (inl e) -> e <> ImportError ->
  List.length (visited (conf_py env w)) = 19.
Proof.
  intros Hrtd Hp Hne.
  unfold conf_py, general_configuration, html_output, theme_probe,
    import_module, find_module.
  rewrite Hrtd, Hp. destruct e; [congruence|..]; vm_compute; reflexivity.
Qed.

Lemma conf_py_after_probe_raised env w e k :
  on_rtd env = false -> rtd_theme env = Some (inl e) -> e <> ImportError ->
  In k names_after_probe ->
  globals (final (conf_py env w)) !! k = globals w !! k.
Proof.
  intros Hrtd Hp Hne Hin. apply conf_py_lookup_untouched.
  unfold conf_py, general_configuration, html_output, theme_probe,
    import_module, find_module.
  rewrite Hrtd, Hp. unfold names_after_probe in Hin. cbn [In] in Hin.
  repeat (destruct Hin as [<-|Hin];
          [ destruct e; [congruence|..]; vm_compute; reflexivity | ]).
  destruct Hin.
Qed.

(** X11: when, off the hosted path, the call of line 40 raises an exception
    that line 41 does not catch, the module body stops there.  It raises
    that exception after 19 assignments, the last two those of lines 38 and
    39: the module is bound and the theme is 'sphinx_rtd_theme' already.
    Every name that the later lines assign ([html_static_path] to
    [man_pages], and the hook [setup] itself) is left as the starting
    namespace had it. *)
Theorem raising_call_stops_module_body (env : Env) (w : World) (e : exn) :
  on_rtd env = false -> rtd_theme env = Some (inl e) -> e <> ImportError ->
  out (conf_py env w) = Raised e
  /\ List.length (visited (conf_py env w)) = 19
  /\ globals (final (conf_py env w)) !! "sphinx_rtd_theme"
     = Some (VModule (ModRtdTheme (inl e)))
  /\ globals (final (conf_py env w)) !! "html_theme"
     = Some (VStr "sphinx_rtd_theme")
  /\ (forall k,
        In k names_after_probe ->
        globals (final (conf_py env w)) !! k = globals w !! k).
Proof.
  intros Hrtd Hp Hne.
  split; [apply conf_py_raises, escaping_spec; auto|].
  split; [exact (conf_py_trace_length_raised env w e Hrtd Hp Hne)|].
  split; [exact (probe_binds_module env w (inl e) Hrtd Hp)|].
  split; [rewrite conf_py_html_theme, Hrtd, Hp; reflexivity|].
  intros k. exact (conf_py_after_probe_raised env w e k Hrtd Hp Hne).
Qed.

Lemma raising_call_stops_module_body_witness :
  on_rtd env_local_broken_theme = false
  /\ rtd_theme env_local_broken_theme = Some (inl AttributeError)
  /\ AttributeError <> ImportError
  /\ out (conf_py env_local_broken_theme fresh) = Raised AttributeError
  /\ List.length (visited (conf_py env_local_broken_theme fresh)) = 19.
Proof.
  assert (Hne : AttributeError <> ImportError) by discriminate.
  split; [reflexivity|]. split; [reflexivity|]. split; [exact Hne|].
  split.
  - exact (proj1 (raising_call_stops_module_body env_local_broken_theme
                    fresh AttributeError eq_refl eq_refl Hne)).
  - exact (proj1 (proj2 (raising_call_stops_module_body
                           env_local_broken_theme fresh AttributeError
                           eq_refl eq_refl Hne))).
Defined.

(** ** What the module body reads of the environment *)

(** The module body reads the environment only through [on_rtd] and, off the
    hosted path, the theme package. *)
Lemma conf_py_reads env1 env2 w :
  on_rtd env1 = on_rtd env2 ->
  (on_rtd env1 = false -> rtd_theme env1 = rtd_theme env2) ->
  conf_py env1 w = conf_py env2 w.
Proof.
  intros Hrtd Ht.
  unfold conf_py, general_configuration, html_output.
  rewrite <- Hrtd. destruct (on_rtd env1); cbn [negb].
  - reflexivity.
  - unfold theme_probe, import_module, find_module.
    rewrite (Ht eq_refl). reflexivity.
Qed.




(** X6: in a hosted build (READTHEDOCS is 'True') the theme package is never
    consulted: the whole run is the same whether or not the package is
    installed, and whatever path it would report or exception it would
    raise. *)
Theorem hosted_build_ignores_theme_package (e : gmap string string)
  (t1 t2 : option (exn + string)) (w : World) :
  e !! "READTHEDOCS" = Some "True" ->
  conf_py (mkEnv e t1) w = conf_py (mkEnv e t2) w.
Proof.
  intros He.
  assert (H1 : on_rtd (mkEnv e t1) = true) by (by apply on_rtd_true_iff).
  assert (H2 : on_rtd (mkEnv e t2) = true) by (by apply on_rtd_true_iff).
  apply conf_py_reads.
  - rewrite H1, H2. reflexivity.
  - rewrite H1. discriminate.
Qed.

Lemma hosted_build_ignores_theme_package_witness :
  ({[ "READTHEDOCS" := "True" ]} : gmap string string) !! "READTHEDOCS"
  = Some "True"
  /\ conf_py env_hosted_with_theme fresh
     = conf_py env_hosted_without_theme fresh.
Proof.
  assert (He : ({[ "READTHEDOCS" := "True" ]} : gmap string string)
               !! "READTHEDOCS" = Some "True") by reflexivity.
  split; [exact He|].
  exact (hosted_build_ignores_theme_package _
           (Some (inr "/site-packages/sphinx_rtd_theme")) None fresh He).
Defined.

(** ** The names the module body assigns *)

Lemma keeps_insert (k key : string) (x : option value) (v : value) w :
  key <> k ->
  globals w !! k = x ->
  globals (mkWorld (<[key := v]> (globals w)) (host w)) !! k = x.
Proof. intros Hne Hw. cbn. by rewrite lookup_insert_ne. Qed.

Lemma conf_name_neq (k key : string) :
  In key conf_names -> ~ In k conf_names -> key <> k.
Proof. intros Hin Hk ->. exact (Hk Hin). Qed.

Ltac in_conf_names :=
  unfold conf_names; cbn [In];
  repeat first [ left; reflexivity | right ].

Ltac keep_step Hk :=
  lazymatch goal with
  | |- preserves _ (ret _) => apply preserves_ret
  | |- preserves _ (set_global _ _) =>
      apply preserves_set_global; intros ? ?; apply keeps_insert;
      [ apply conf_name_neq; [ in_conf_names | exact Hk ] | assumption ]
  | |- preserves _ (import_module _ _) =>
      apply preserves_import; intros ? ? ?; apply keeps_insert;
      [ apply conf_name_neq; [ in_conf_names | exact Hk ] | assumption ]
  | |- preserves _ (get_html_theme_path _) =>
      apply preserves_get_html_theme_path
  | |- preserves _ (lift_result _) => apply preserves_lift_result
  | |- preserves _ (try_except _ _ _) => apply preserves_try_except
  | |- preserves _ (bind _ _) => apply preserves_bind; [ | intros ? ]
  end.

Lemma conf_py_keeps k x env :
  ~ In k conf_names ->
  preserves (fun w => globals w !! k = x) (conf_py env).
Proof.
  intros Hk.
  unfold conf_py, general_configuration, html_output, latex_and_man_output,
    theme_probe.
  destruct (on_rtd env); cbn [negb]; repeat keep_step Hk.
Qed.

(** X7: a name the module body does not assign keeps, in every world the
    run passes through and in the final one, the value (or the absence) it
    had in the starting namespace. *)
Theorem conf_py_keeps_foreign_names (env : Env) (w : World) (k : string) :
  ~ In k conf_names ->
  Forall (fun w' => globals w' !! k = globals w !! k) (visited (conf_py env w))
  /\ globals (final (conf_py env w)) !! k = globals w !! k.
Proof.
  intros Hk. exact (conf_py_keeps k (globals w !! k) env Hk w eq_refl).
Qed.

Lemma conf_py_keeps_foreign_names_witness :
  ~ In "tags" conf_names
  /\ globals (final (conf_py env_local_with_theme
                       (mkWorld {[ "tags" := VList [] ]} (mkHost []))))
     !! "tags"
     = Some (VList []).
Proof.
  assert (Hk : ~ In "tags" conf_names).
  { unfold conf_names. cbn [In]. intuition discriminate. }
  split; [exact Hk|].
  exact (proj2 (conf_py_keeps_foreign_names env_local_with_theme
                  (mkWorld {[ "tags" := VList [] ]} (mkHost [])) "tags" Hk)).
Defined.


Lemma fresh_setting_ignores_environment env k :
  In k conf_names -> ~ In k env_dependent_names ->
  escaping env = None ->
  globals (final (conf_py env fresh)) !! k
  = globals (final (conf_py env_hosted_without_theme fresh)) !! k.
Proof.
  unfold conf_names, env_dependent_names. cbn [In]. intros Hin Hk Hesc.
  repeat (destruct Hin as [<-|Hin];
          [ first [ solve [ exfalso; apply Hk;
                            repeat first [ left; reflexivity | right ] ]
                  | revert Hesc; conf_cases env;
                    first [ discriminate | intros _; vm_compute; reflexivity ] ]
          | ]).
  destruct Hin.
Qed.

Lemma returns_not_escaping env w :
  out (conf_py env w) = Returned tt -> escaping env = None.
Proof.
  rewrite conf_py_out. destruct (escaping env); [discriminate|reflexivity].
Qed.

(** X8: in any two environments in which the module body returns, every
    name apart from [on_rtd], [html_theme], [sphinx_rtd_theme] and
    [html_theme_path] has the same value after loading. *)
Theorem other_settings_ignore_environment (env1 env2 : Env) (w : World)
  (k : string) :
  ~ In k env_dependent_names ->
  out (conf_py env1 w) = Returned tt ->
  out (conf_py env2 w) = Returned tt ->
  globals (final (conf_py env1 w)) !! k = globals (final (conf_py env2 w)) !! k.
Proof.
  intros Hk H1 H2.
  apply returns_not_escaping in H1, H2.
  destruct (in_dec string_dec k conf_names) as [Hin|Hout].
  - rewrite (conf_py_globals env1 w), (conf_py_globals env2 w), !lookup_union.
    rewrite (fresh_setting_ignores_environment env1 k Hin Hk H1),
      (fresh_setting_ignores_environment env2 k Hin Hk H2). reflexivity.
  - rewrite (proj2 (conf_py_keeps k _ env1 Hout w eq_refl)),
      (proj2 (conf_py_keeps k _ env2 Hout w eq_refl)). reflexivity.
Qed.

Lemma other_settings_ignore_environment_witness :
  ~ In "extlinks" env_dependent_names
  /\ out (conf_py env_local_with_theme fresh) = Returned tt
  /\ out (conf_py env_hosted_without_theme fresh) = Returned tt
  /\ globals (final (conf_py env_local_with_theme fresh)) !! "extlinks"
     = globals (final (conf_py env_hosted_without_theme fresh)) !! "extlinks".
Proof.
  assert (Hk : ~ In "extlinks" env_dependent_names).
  { unfold env_dependent_names. cbn [In]. intuition discriminate. }
  assert (H1 : out (conf_py env_local_with_theme fresh) = Returned tt)
    by (vm_compute; reflexivity).
  assert (H2 : out (conf_py env_hosted_without_theme fresh) = Returned tt)
    by (vm_compute; reflexivity).
  split; [exact Hk|]. split; [exact H1|]. split; [exact H2|].
  exact (other_settings_ignore_environment env_local_with_theme
           env_hosted_without_theme fresh "extlinks" Hk H1 H2).
Defined.

(** ** [str.format] as line 23 calls it *)

Lemma digit_of_digit_char d : d < 10 -> digit_of (digit_char d) = Some d.
Proof.
  intros Hd. do 10 (destruct d as [|d]; [reflexivity|]). lia.
Qed.

Lemma digit_char_not_brace d :
  d < 10 -> Ascii.eqb (digit_char d) "{" = false
            /\ Ascii.eqb (digit_char d) "}" = false.
Proof.
  intros Hd. do 10 (destruct d as [|d]; [split; reflexivity|]). lia.
Qed.

Lemma format_from_text_prefix pre rest args :
  brace_free pre = true ->
  format_from Text (pre +:+ rest) args = emit pre (format_from Text rest args).
Proof.
  induction pre as [|c pre IH]; intros Hb.
  - change ("" +:+ rest) with rest. destruct (format_from Text rest args); reflexivity.
  - cbn [brace_free] in Hb.
    apply andb_true_iff in Hb as [Hb Hpre]. apply andb_true_iff in Hb as [H1 H2].
    apply negb_true_iff in H1, H2.
    change (String c pre +:+ rest) with (String c (pre +:+ rest)).
    cbn [format_from]. rewrite H1, H2, (IH Hpre).
    destruct (format_from Text rest args); reflexivity.
Qed.

Lemma append_empty_r (s : string) : s +:+ "" = s.
Proof.
  induction s as [|c s IH]; [reflexivity|].
  change (String c s +:+ "") with (String c (s +:+ "")). by rewrite IH.
Qed.

Lemma format_from_brace_free post args :
  brace_free post = true -> format_from Text post args = inr post.
Proof.
  intros Hb. rewrite <- (append_empty_r post) at 1.
  rewrite format_from_text_prefix by exact Hb.
  change (format_from Text "" args) with (@inr exn string "").
  cbn [emit]. rewrite append_empty_r. reflexivity.
Qed.

(** X10: a template made of brace-free text around one field [{d}] formats
    to the text with the [d]-th argument in the place of the field, and
    raises IndexError when there is no such argument. *)
Theorem format_single_field (pre post : string) (d : nat)
  (args : list string) :
  brace_free pre = true -> brace_free post = true -> d < 10 ->
  format (pre +:+ String "{" (String (digit_char d) (String "}" post))) args
  = match args !! d with
    | Some a => inr (pre +:+ a +:+ post)
    | None => inl IndexError
    end.
Proof.
  intros Hpre Hpost Hd. unfold format.
  rewrite format_from_text_prefix by exact Hpre.
  cbn [format_from]. change (Ascii.eqb "{" "{") with true. cbv iota.
  destruct (digit_char_not_brace d Hd) as [Ho Hc].
  rewrite Ho, (digit_of_digit_char d Hd).
  change (Ascii.eqb "}" "}") with true. cbv iota.
  destruct (args !! d) as [a|]; [|reflexivity].
  rewrite format_from_brace_free by exact Hpost. reflexivity.
Qed.

Lemma format_single_field_witness :
  brace_free (LF +:+ ".. |last_stable| replace:: :silhouette-doc:`") = true
  /\ brace_free ("`" +:+ LF) = true
  /\ 0 < 10
  /\ format rst_prolog_template [last_stable; release]
     = inr ((LF +:+ ".. |last_stable| replace:: :silhouette-doc:`")
            +:+ last_stable +:+ ("`" +:+ LF)).
Proof.
  assert (Hpre : brace_free
                   (LF +:+ ".. |last_stable| replace:: :silhouette-doc:`")
                 = true) by reflexivity.
  assert (Hpost : brace_free ("`" +:+ LF) = true) by reflexivity.
  assert (Hd : 0 < 10) by lia.
  split; [exact Hpre|]. split; [exact Hpost|]. split; [exact Hd|].
  exact (format_single_field _ _ 0 [last_stable; release] Hpre Hpost Hd).
Defined.
